(** * zero.Bool: a nullable boolean whose false value reads as null

    A shallow embedding of [zero/bool.go] and a verification of its
    conversion rules (strings, text, JSON) and of its three-valued
    operators.

    Conventions of the embedding.
    - A Go [string] is a [String.string] (a sequence of 8-bit [ascii]), a Go
      [[]byte] is a [list byte]; the conversions [string(text)] and
      [[]byte("...")] are [string_of_list_byte] and [list_byte_of_string].
    - A method with a pointer receiver returns the receiver after the call;
      a method that also returns an [error] returns the pair of the receiver
      after the call and [option error] ([None] is Go's [nil] error).
    - [sql.NullBool] and the part of [encoding/json] that [UnmarshalJSON]
      calls belong to Go's standard library; they are modelled in the
      modules [sql] and [json] below. *)

From Stdlib Require Import Bool List String Ascii Strings.Byte ZArith Lia.
Import ListNotations.

Set Warnings "-register-all".

Local Open Scope string_scope.
Local Open Scope bool_scope.

(** ** Go errors *)

(** The dynamic values of Go's [error] interface that this package returns
    or passes on. *)
Inductive error : Type :=
| ErrorString (msg : string)
    (* errors.New(msg), and fmt.Errorf without a %w verb: the message *)
| SyntaxError
    (* *json.SyntaxError: the input is not JSON text (message and offset are
       not modelled) *)
| UnmarshalTypeError (Value : string) (Type_ : string).
    (* *json.UnmarshalTypeError: a JSON value of description Value does not
       fit a Go value of type Type_ *)

(** The message of an error built by [errors.New] or [fmt.Errorf]. *)
Definition Error (e : error) : option string :=
  match e with
  | ErrorString msg => Some msg
  | _ => None
  end.

(** ** database/sql *)

Module sql.

(** [type NullBool struct { Bool bool; Valid bool }] *)
Record NullBool : Type := mkNullBool { Bool : bool; Valid : bool }.

End sql.

(** ** encoding/json

    The part of Go's [encoding/json] that [UnmarshalJSON] relies on:
    [json.Unmarshal] into an [interface{}] and into a [sql.NullBool].  Both
    first check that the whole input is one JSON text (RFC 8259, with Go's
    limit on nesting), then decode it. *)

Module json.

(** The values [json.Unmarshal] stores in an [interface{}]: [nil] for
    null, [bool], [float64] for a number, [string], [[]interface{}] for an
    array and [map[string]interface{}] for an object.  A [float64] is kept
    as the literal it was read from, a map as its members in the order of
    the text. *)
Inductive any : Type :=
| v_nil
| v_bool (x : bool)
| v_float64 (lit : string)
| v_string (s : string)
| v_slice (elems : list any)
| v_map (members : list (string * any)).

Definition code (c : byte) : Z := Z.of_N (Byte.to_N c).

Definition byte_of_Z (z : Z) : byte :=
  match Byte.of_N (Z.to_N z) with Some b => b | None => x00 end.

Definition is_space (c : byte) : bool :=
  match c with x20 | x09 | x0d | x0a (* space \t \r \n *) => true | _ => false end.

Definition is_digit (c : byte) : bool := (48 <=? code c)%Z && (code c <=? 57)%Z.

Definition hex_val (c : byte) : option Z :=
  let n := code c in
  if (48 <=? n)%Z && (n <=? 57)%Z then Some (n - 48)%Z
  else if (97 <=? n)%Z && (n <=? 102)%Z then Some (n - 87)%Z
  else if (65 <=? n)%Z && (n <=? 70)%Z then Some (n - 55)%Z
  else None.

(** *** UTF-8, as package [unicode/utf8] *)

(** [utf8.RuneError], U+FFFD, encoded. *)
Definition RuneError : list byte := [xef; xbf; xbd].

(** [utf8.EncodeRune]. *)
Definition EncodeRune (r : Z) : list byte :=
  if (r <? 0)%Z then RuneError
  else if (r <? 128)%Z then [byte_of_Z r]
  else if (r <? 2048)%Z then
    [byte_of_Z (192 + r / 64); byte_of_Z (128 + r mod 64)]
  else if ((55296 <=? r) && (r <? 57344))%Z || (1114111 <? r)%Z then RuneError
  else if (r <? 65536)%Z then
    [byte_of_Z (224 + r / 4096); byte_of_Z (128 + (r / 64) mod 64);
     byte_of_Z (128 + r mod 64)]
  else
    [byte_of_Z (240 + r / 262144); byte_of_Z (128 + (r / 4096) mod 64);
     byte_of_Z (128 + (r / 64) mod 64); byte_of_Z (128 + r mod 64)].

Definition between (lo hi : Z) (c : byte) : bool :=
  (lo <=? code c)%Z && (code c <=? hi)%Z.

(** The size of the well-formed encoding at the head of [s], if there is
    one ([utf8.DecodeRune] answers [RuneError] with size 1 otherwise). *)
Definition rune_size (s : list byte) : option nat :=
  match s with
  | [] => None
  | c0 :: r =>
      let n := code c0 in
      if (n <? 128)%Z then Some 1%nat
      else if (194 <=? n)%Z && (n <=? 223)%Z then
        match r with
        | c1 :: _ => if between 128 191 c1 then Some 2%nat else None
        | _ => None
        end
      else if (224 <=? n)%Z && (n <=? 239)%Z then
        match r with
        | c1 :: c2 :: _ =>
            let lo := if (n =? 224)%Z then 160%Z else 128%Z in
            let hi := if (n =? 237)%Z then 159%Z else 191%Z in
            if between lo hi c1 && between 128 191 c2 then Some 3%nat else None
        | _ => None
        end
      else if (240 <=? n)%Z && (n <=? 244)%Z then
        match r with
        | c1 :: c2 :: c3 :: _ =>
            let lo := if (n =? 240)%Z then 144%Z else 128%Z in
            let hi := if (n =? 244)%Z then 143%Z else 191%Z in
            if between lo hi c1 && between 128 191 c2 && between 128 191 c3
            then Some 4%nat else None
        | _ => None
        end
      else None
  end.

(** *** Strings: [unquote] *)

(** [getu4]: the number of a [\uXXXX] escape at the head of [s]. *)
Definition getu4 (s : list byte) : option Z :=
  match s with
  | x5c :: x75 :: h1 :: h2 :: h3 :: h4 :: _ =>
      match hex_val h1, hex_val h2, hex_val h3, hex_val h4 with
      | Some a, Some b, Some c, Some d => Some (((a * 16 + b) * 16 + c) * 16 + d)%Z
      | _, _, _, _ => None
      end
  | _ => None
  end.

Definition is_surrogate (r : Z) : bool := (55296 <=? r)%Z && (r <? 57344)%Z.

(** [utf16.DecodeRune]: the code point of a surrogate pair, if it is one. *)
Definition utf16_DecodeRune (r1 r2 : Z) : option Z :=
  if (55296 <=? r1)%Z && (r1 <? 56320)%Z && (56320 <=? r2)%Z && (r2 <? 57344)%Z
  then Some ((r1 - 55296) * 1024 + (r2 - 56320) + 65536)%Z
  else None.

(** [unquote], on the bytes between the quotes of a string the scanner
    accepted: escapes are replaced, ill-formed UTF-8 and unpaired
    surrogates become U+FFFD.  [copy] counts the bytes of a well-formed
    encoding still to be copied. *)
Fixpoint unquote (copy : nat) (s : list byte) : list byte :=
  match copy, s with
  | _, [] => []
  | S k, c :: r => c :: unquote k r
  | O, x5c (* backslash *) :: r =>
      match r with
      | [] => []
      | x75 (* u *) :: h1 :: h2 :: h3 :: h4 :: r' =>
          match getu4 s with
          | None => []
          | Some rr =>
              if is_surrogate rr then
                match r' with
                | x5c :: x75 :: g1 :: g2 :: g3 :: g4 :: r'' =>
                    match getu4 r' with
                    | Some rr1 =>
                        match utf16_DecodeRune rr rr1 with
                        | Some dec => EncodeRune dec ++ unquote 0 r''
                        | None => RuneError ++ unquote 0 r'
                        end
                    | None => RuneError ++ unquote 0 r'
                    end
                | _ => RuneError ++ unquote 0 r'
                end
              else EncodeRune rr ++ unquote 0 r'
          end
      | e :: r' =>
          let c := match e with
                   | x62 (* b *) => x08 | x66 (* f *) => x0c | x6e (* n *) => x0a
                   | x72 (* r *) => x0d | x74 (* t *) => x09
                   | _ => e
                   end in
          c :: unquote 0 r'
      end
  | O, c :: r =>
      match rune_size s with
      | Some n => c :: unquote (pred n) r
      | None => RuneError ++ unquote 0 r
      end
  end.

(** *** The scanner

    Go's scanner reads the input byte by byte; so does [lex], which cuts
    it into tokens, and [parse], which consumes the tokens with the
    scanner's stack of open arrays and objects. *)

Inductive token : Type :=
| LBrace | RBrace | LBracket | RBracket | Colon | Comma
| Scalar (v : any).

(** Where the scanner stands inside a number: after the sign, after a
    leading 0, in the integer digits, after the point, in the fraction,
    after e, after the sign of the exponent, in the exponent. *)
Inductive num_state : Type :=
| stateNeg | state0 | state1 | stateDot | stateDot0 | stateE | stateESign | stateE0.

(** The next state inside a number, [None] when [c] cannot continue it. *)
Definition num_step (st : num_state) (c : byte) : option num_state :=
  let is_e := match c with x65 | x45 (* e E *) => true | _ => false end in
  let is_dot := match c with x2e (* . *) => true | _ => false end in
  match st with
  | stateNeg =>
      if between 48 48 c then Some state0
      else if between 49 57 c then Some state1 else None
  | state0 =>
      if is_dot then Some stateDot else if is_e then Some stateE else None
  | state1 =>
      if is_digit c then Some state1
      else if is_dot then Some stateDot else if is_e then Some stateE else None
  | stateDot => if is_digit c then Some stateDot0 else None
  | stateDot0 =>
      if is_digit c then Some stateDot0 else if is_e then Some stateE else None
  | stateE =>
      match c with
      | x2b | x2d (* + - *) => Some stateESign
      | _ => if is_digit c then Some stateE0 else None
      end
  | stateESign => if is_digit c then Some stateE0 else None
  | stateE0 => if is_digit c then Some stateE0 else None
  end.

(** The states in which a number may end. *)
Definition num_end (st : num_state) : bool :=
  match st with
  | state0 | state1 | stateDot0 | stateE0 => true
  | _ => false
  end.

Inductive lex_state : Type :=
| InValue
    (* between tokens *)
| InLiteral (rest : list byte) (v : any)
    (* inside true, false or null: the bytes still expected *)
| InString (esc : nat) (raw_rev : list byte)
    (* inside a string: esc is 0, or 1 after a backslash, or 1 + the
       number of hex digits still expected after \u *)
| InNumber (st : num_state) (lit_rev : list byte).

Definition string_of_rev (bs_rev : list byte) : string :=
  string_of_list_byte (rev bs_rev).

(** A byte read between tokens. *)
Definition lex_value (c : byte) (out_rev : list token)
  : option (lex_state * list token) :=
  if is_space c then Some (InValue, out_rev) else
  match c with
  | x7b (* { *) => Some (InValue, LBrace :: out_rev)
  | x7d (* } *) => Some (InValue, RBrace :: out_rev)
  | x5b (* [ *) => Some (InValue, LBracket :: out_rev)
  | x5d (* ] *) => Some (InValue, RBracket :: out_rev)
  | x3a (* : *) => Some (InValue, Colon :: out_rev)
  | x2c (* , *) => Some (InValue, Comma :: out_rev)
  | x22 (* quote *) => Some (InString 0 [], out_rev)
  | x2d (* - *) => Some (InNumber stateNeg [c], out_rev)
  | x30 (* 0 *) => Some (InNumber state0 [c], out_rev)
  | x74 (* t, then rue *) => Some (InLiteral [x72; x75; x65] (v_bool true), out_rev)
  | x66 (* f, then alse *) =>
      Some (InLiteral [x61; x6c; x73; x65] (v_bool false), out_rev)
  | x6e (* n, then ull *) => Some (InLiteral [x75; x6c; x6c] v_nil, out_rev)
  | _ (* 1 to 9 *) =>
      if between 49 57 c then Some (InNumber state1 [c], out_rev) else None
  end.

Definition lex_step (st : lex_state) (c : byte) (out_rev : list token)
  : option (lex_state * list token) :=
  match st with
  | InValue => lex_value c out_rev
  | InLiteral rest v =>
      match rest with
      | e :: rest' =>
          if Byte.eqb c e then
            match rest' with
            | [] => Some (InValue, Scalar v :: out_rev)
            | _ => Some (InLiteral rest' v, out_rev)
            end
          else None
      | [] => None
      end
  | InString O raw_rev =>
      match c with
      | x22 (* closing quote *) =>
          Some (InValue,
                Scalar (v_string (string_of_list_byte (unquote 0 (rev raw_rev))))
                :: out_rev)
      | x5c (* backslash *) => Some (InString 1 (c :: raw_rev), out_rev)
      | _ => if (code c <? 32)%Z then None else Some (InString 0 (c :: raw_rev), out_rev)
      end
  | InString (S O) raw_rev =>
      match c with
      | x62 | x66 | x6e | x72 | x74 | x5c | x2f | x22 (* b f n r t \ / quote *) =>
          Some (InString 0 (c :: raw_rev), out_rev)
      | x75 (* u *) => Some (InString 5 (c :: raw_rev), out_rev)
      | _ => None
      end
  | InString (S (S k)) raw_rev =>
      match hex_val c with
      | Some _ => Some (InString (match k with O => O | _ => S k end) (c :: raw_rev), out_rev)
      | None => None
      end
  | InNumber ns lit_rev =>
      match num_step ns c with
      | Some ns' => Some (InNumber ns' (c :: lit_rev), out_rev)
      | None =>
          if num_end ns
          then lex_value c (Scalar (v_float64 (string_of_rev lit_rev)) :: out_rev)
          else None
      end
  end.

(** The tokens of [s], [None] when [s] does not scan. *)
Fixpoint lex (st : lex_state) (out_rev : list token) (s : list byte)
  : option (list token) :=
  match s with
  | [] =>
      match st with
      | InValue => Some (rev out_rev)
      | InNumber ns lit_rev =>
          if num_end ns
          then Some (rev (Scalar (v_float64 (string_of_rev lit_rev)) :: out_rev))
          else None
      | _ => None
      end
  | c :: r =>
      match lex_step st c out_rev with
      | Some (st', out_rev') => lex st' out_rev' r
      | None => None
      end
  end.

(** What the scanner expects next. *)
Inductive parse_mode : Type :=
| BeginValue | BeginValueOrEmpty | BeginString | BeginStringOrEmpty
| EndKey | EndValue
| EndTop (v : any).

(** An open array with its elements so far, or an open object with its
    members so far and the key whose value is awaited. *)
Inductive frame : Type :=
| parseArray (elems_rev : list any)
| parseObject (members_rev : list (string * any)) (key : option string).

(** The scanner refuses more than this many open arrays and objects. *)
Definition maxNestingDepth : Z := 10000.

Definition push (f : frame) (stack : list frame) (m : parse_mode)
  : option (parse_mode * list frame) :=
  if (Z.of_nat (List.length (f :: stack)) <=? maxNestingDepth)%Z
  then Some (m, f :: stack) else None.

(** A complete value goes to the innermost open array or object. *)
Definition deliver (v : any) (stack : list frame) : option (parse_mode * list frame) :=
  match stack with
  | [] => Some (EndTop v, [])
  | parseArray es :: st => Some (EndValue, parseArray (v :: es) :: st)
  | parseObject ms (Some k) :: st => Some (EndValue, parseObject ((k, v) :: ms) None :: st)
  | parseObject _ None :: _ => None
  end.

Definition parse_step (m : parse_mode) (stack : list frame) (t : token)
  : option (parse_mode * list frame) :=
  match m, t, stack with
  | (BeginValue | BeginValueOrEmpty), Scalar v, _ => deliver v stack
  | (BeginValue | BeginValueOrEmpty), LBracket, _ =>
      push (parseArray []) stack BeginValueOrEmpty
  | (BeginValue | BeginValueOrEmpty), LBrace, _ =>
      push (parseObject [] None) stack BeginStringOrEmpty
  | (BeginValueOrEmpty | EndValue), RBracket, parseArray es :: st =>
      deliver (v_slice (rev es)) st
  | (BeginString | BeginStringOrEmpty), Scalar (v_string k), parseObject ms _ :: st =>
      Some (EndKey, parseObject ms (Some k) :: st)
  | (BeginStringOrEmpty | EndValue), RBrace, parseObject ms _ :: st =>
      deliver (v_map (rev ms)) st
  | EndKey, Colon, _ => Some (BeginValue, stack)
  | EndValue, Comma, parseArray _ :: _ => Some (BeginValue, stack)
  | EndValue, Comma, parseObject _ _ :: _ => Some (BeginString, stack)
  | _, _, _ => None
  end.

Fixpoint parse_tokens (m : parse_mode) (stack : list frame) (ts : list token)
  : option any :=
  match ts with
  | [] => match m with EndTop v => Some v | _ => None end
  | t :: ts' =>
      match parse_step m stack t with
      | Some (m', stack') => parse_tokens m' stack' ts'
      | None => None
      end
  end.

(** The value of the JSON text [data]; [None] when [data] is not one JSON
    text ([checkValid] fails). *)
Definition parse (data : list byte) : option any :=
  match lex InValue [] data with
  | Some ts => parse_tokens BeginValue [] ts
  | None => None
  end.

(** *** Numbers: the range of float64

    [strconv.ParseFloat] fails on a number literal, which the scanner
    accepted, exactly when it rounds to an infinity: when its magnitude
    is at least 2^1024 - 2^970, half a unit in the last place above the
    largest float64. *)

(** A literal read as [mant * 10^(esign * exp - frac)]. *)
Record decimal : Type :=
  mkDecimal { mant : Z; frac : Z; in_frac : bool; exp : Z; esign : Z; in_exp : bool }.

Definition decimal_step (d : decimal) (c : byte) : decimal :=
  let '(mkDecimal m f inf e es ine) := d in
  match c with
  | x2e (* . *) => mkDecimal m f true e es ine
  | x65 | x45 (* e E *) => mkDecimal m f inf e es true
  | x2d (* - *) => if ine then mkDecimal m f inf e (-1) ine else d
  | x2b (* + *) => d
  | _ (* a digit *) =>
      let n := (code c - 48)%Z in
      if ine then
        (* strconv stops accumulating an exponent that reached 10000 *)
        mkDecimal m f inf (if (e <? 10000)%Z then e * 10 + n else e)%Z es ine
      else mkDecimal (m * 10 + n)%Z (if inf then f + 1 else f)%Z inf e es ine
  end.

Definition read_decimal (lit : string) : decimal :=
  fold_left decimal_step (list_byte_of_string lit) (mkDecimal 0 0 false 0 1 false).

Definition float64_out_of_range (lit : string) : bool :=
  let d := read_decimal lit in
  let e10 := (esign d * exp d - frac d)%Z in
  let limit := (2 ^ 1024 - 2 ^ 970)%Z in
  if (0 <=? e10)%Z then (limit <=? mant d * 10 ^ e10)%Z
  else (limit * 10 ^ (- e10) <=? mant d)%Z.

(** The first number of [v], in the order of the text, that is out of
    the range of float64. *)
Fixpoint out_of_range (v : any) : option string :=
  match v with
  | v_float64 lit => if float64_out_of_range lit then Some lit else None
  | v_slice es =>
      (fix first (l : list any) : option string :=
         match l with
         | [] => None
         | e :: l' => match out_of_range e with Some s => Some s | None => first l' end
         end) es
  | v_map ms =>
      (fix first (l : list (string * any)) : option string :=
         match l with
         | [] => None
         | (_, e) :: l' => match out_of_range e with Some s => Some s | None => first l' end
         end) ms
  | _ => None
  end.

(** *** json.Unmarshal(data, &v) with [var v interface{}]

    The result is the error, or the value stored in [v]. *)
Definition Unmarshal_interface (data : list byte) : error + any :=
  match parse data with
  | None => inl SyntaxError
  | Some v =>
      match out_of_range v with
      | Some lit => inl (UnmarshalTypeError ("number " ++ lit) "float64")
      | None => inr v
      end
  end.

(** [reflect.TypeOf(v).Name()]: the name of a defined type, the empty
    string for a type that has none, as the slice and map types ([v] is
    not nil where the package asks). *)
Definition TypeOf_Name (v : any) : string :=
  match v with
  | v_bool _ => "bool"
  | v_float64 _ => "float64"
  | v_string _ => "string"
  | v_nil | v_slice _ | v_map _ => ""
  end.

(** *** json.Unmarshal(data, &nb) with [nb] a [sql.NullBool] *)

Definition upper (a : ascii) : ascii :=
  let n := nat_of_ascii a in
  if ((97 <=? n) && (n <=? 122))%nat then ascii_of_nat (n - 32) else a.

(** [foldName] on the bytes below 128.  A key with other bytes folds to
    none of the two field names, whose letters fold with ASCII letters
    only. *)
Fixpoint foldName (s : string) : string :=
  match s with
  | EmptyString => EmptyString
  | String a r => String (upper a) (foldName r)
  end.

(** A JSON value stored in a field of type bool: true and false are
    stored, null leaves the field as it is, any other value is a type
    error and leaves the field as it is. *)
Definition store_bool (cur : bool) (v : any) : bool * option error :=
  match v with
  | v_bool x => (x, None)
  | v_nil => (cur, None)
  | v_float64 _ => (cur, Some (UnmarshalTypeError "number" "bool"))
  | v_string _ => (cur, Some (UnmarshalTypeError "string" "bool"))
  | v_slice _ => (cur, Some (UnmarshalTypeError "array" "bool"))
  | v_map _ => (cur, Some (UnmarshalTypeError "object" "bool"))
  end.

(** [saveError]: the first error is the one kept. *)
Definition saveError (saved new : option error) : option error :=
  match saved with Some _ => saved | None => new end.

(** The members of an object in their order: a key that is, up to case,
    the name of a field is stored into it; any other key is skipped. *)
Fixpoint object_NullBool (ms : list (string * any)) (nb : sql.NullBool)
  (saved : option error) : sql.NullBool * option error :=
  match ms with
  | [] => (nb, saved)
  | (k, v) :: ms' =>
      if foldName k =? "BOOL" then
        let (x, e) := store_bool (sql.Bool nb) v in
        object_NullBool ms' (sql.mkNullBool x (sql.Valid nb)) (saveError saved e)
      else if foldName k =? "VALID" then
        let (x, e) := store_bool (sql.Valid nb) v in
        object_NullBool ms' (sql.mkNullBool (sql.Bool nb) x) (saveError saved e)
      else object_NullBool ms' nb saved
  end.

(** The result is [nb] after the call, and the error. *)
Definition Unmarshal_NullBool (data : list byte) (nb : sql.NullBool)
  : sql.NullBool * option error :=
  match parse data with
  | None => (nb, Some SyntaxError)
  | Some v =>
      match v with
      | v_map ms => object_NullBool ms nb None
      | v_nil => (nb, None)
      | v_bool _ => (nb, Some (UnmarshalTypeError "bool" "sql.NullBool"))
      | v_float64 _ => (nb, Some (UnmarshalTypeError "number" "sql.NullBool"))
      | v_string _ => (nb, Some (UnmarshalTypeError "string" "sql.NullBool"))
      | v_slice _ => (nb, Some (UnmarshalTypeError "array" "sql.NullBool"))
      end
  end.

End json.

(** ** Package zero *)

Module zero.

(** [type Bool struct { sql.NullBool }] *)
Record Bool : Type := mkBool { NullBool : sql.NullBool }.

(** The promoted fields [b.Bool] and [b.Valid], read and assigned. *)
Definition get_Bool (b : Bool) : bool := sql.Bool (NullBool b).
Definition get_Valid (b : Bool) : bool := sql.Valid (NullBool b).
Definition set_Bool (x : bool) (b : Bool) : Bool :=
  mkBool (sql.mkNullBool x (get_Valid b)).
Definition set_Valid (x : bool) (b : Bool) : Bool :=
  mkBool (sql.mkNullBool (get_Bool b) x).

Definition NewBool (b : bool) (valid : bool) : Bool :=
  mkBool (sql.mkNullBool b valid).

Definition BoolFrom (b : bool) : Bool := NewBool b true.

(** A [*bool] is [None] when nil, and the value it points to otherwise. *)
Definition BoolFromPtr (b : option bool) : Bool :=
  match b with
  | None => NewBool false false
  | Some x => NewBool x true
  end.

Definition NewBoolFromString (s : string) (valid : bool) : Bool :=
  if valid then
    if s =? "" then NewBool false false
    else if (s =? "1") || (s =? "true") then NewBool true true
    else if (s =? "0") || (s =? "false") then NewBool false true
    else NewBool false false
  else NewBool false false.

Definition BoolFromString (s : string) : Bool :=
  if s =? "" then NewBool false true
  else if (s =? "1") || (s =? "true") || (s =? "True") || (s =? "TRUE")
  then NewBool true true
  else if (s =? "0") || (s =? "false") || (s =? "False") || (s =? "FALSE")
  then NewBool false true
  else NewBool false false.

Definition BoolFromStringExist (s : string) (b : bool) : Bool :=
  if (s =? "") || Bool.eqb b false then NewBool false true
  else NewBool true true.

(** The message of the error of the default case of [UnmarshalJSON]:
    [fmt.Errorf] with the name of the type of [v] for its [%v]. *)
Definition cannot_unmarshal (name : string) : string :=
  "json: cannot unmarshal " ++ name ++ " into Go value of type zero.Bool".

Definition is_nil (err : option error) : bool :=
  match err with None => true | Some _ => false end.

Definition UnmarshalJSON (b : Bool) (data : list byte) : Bool * option error :=
  match json.Unmarshal_interface data with
  | inl err => (b, Some err)
  | inr v =>
      match v with
      | json.v_nil => (set_Valid false b, None)
      | _ =>
          let '(b1, err) :=
            match v with
            | json.v_bool x => (set_Bool x b, None)
            | json.v_map _ =>
                let (nb, err) := json.Unmarshal_NullBool data (NullBool b) in
                (mkBool nb, err)
            | _ => (b, Some (ErrorString (cannot_unmarshal (json.TypeOf_Name v))))
            end in
          (set_Valid (is_nil err && get_Bool b1) b1, err)
      end
  end.

Definition UnmarshalText (b : Bool) (text : list byte) : Bool * option error :=
  let str := string_of_list_byte text in
  if (str =? "") || (str =? "null") then (set_Valid false b, None)
  else if str =? "true" then
    let b1 := set_Bool true b in (set_Valid (get_Bool b1) b1, None)
  else if str =? "false" then
    let b1 := set_Bool false b in (set_Valid (get_Bool b1) b1, None)
  else (set_Valid false b, Some (ErrorString ("invalid input:" ++ str))).

Definition MarshalJSON (b : Bool) : list byte * option error :=
  if negb (get_Valid b) || negb (get_Bool b)
  then (list_byte_of_string "false", None)
  else (list_byte_of_string "true", None).

Definition MarshalText (b : Bool) : list byte * option error :=
  if negb (get_Valid b) || negb (get_Bool b)
  then (list_byte_of_string "false", None)
  else (list_byte_of_string "true", None).

Definition SetValid (b : Bool) (v : bool) : Bool :=
  set_Valid true (set_Bool v b).

Definition Ptr (b : Bool) : option bool :=
  if negb (get_Valid b) then None else Some (get_Bool b).

Definition IsZero (b : Bool) : bool :=
  negb (get_Valid b) || negb (get_Bool b).

Definition OverwriteWithIfValid (s : Bool) (st : bool) (v : bool) : Bool :=
  if v then set_Valid v (set_Bool st s) else s.

(** [Bool{NullBool: sql.NullBool{}}]: both fields false. *)
Definition zero_value : Bool := mkBool (sql.mkNullBool false false).

Definition AND (s other : Bool) : Bool :=
  let result := zero_value in
  if get_Valid s && get_Valid other
  then set_Valid true (set_Bool (get_Bool s && get_Bool other) result)
  else set_Valid false result.

Definition OR (s other : Bool) : Bool :=
  let result := zero_value in
  if get_Valid s && get_Valid other
  then set_Valid true (set_Bool (get_Bool s || get_Bool other) result)
  else set_Valid false result.

Definition NON (s : Bool) : Bool :=
  if get_Valid s then set_Bool (negb (get_Bool s)) s else s.

Definition XOR (s other : Bool) : Bool :=
  let result := zero_value in
  let x := get_Bool s in
  let y := get_Bool other in
  if get_Valid s && get_Valid other
  then set_Valid true (set_Bool ((x || y) && negb (x && y)) result)
  else set_Valid false result.

End zero.

(** * Verification *)

Import zero.

(** The bytes of a Go string literal, [[]byte("...")]. *)
Definition bytes (s : string) : list byte := list_byte_of_string s.

(** The bytes of a JSON text written with ['] for its double quotes. *)
Definition json_text (s : string) : list byte :=
  map (fun c => if Byte.eqb c x27 then x22 else c) (list_byte_of_string s).

(** The names of Go's integer types, the integer kinds of [reflect]. *)
Definition integer_kind_names : list string :=
  ["int"; "int8"; "int16"; "int32"; "int64";
   "uint"; "uint8"; "uint16"; "uint32"; "uint64"; "uintptr"].

(** The JSON literal of a boolean. *)
Definition literal (x : bool) : string := if x then "true" else "false".

(** The values of the default case of the type switch of [UnmarshalJSON]. *)
Definition is_default (v : json.any) : bool :=
  match v with
  | json.v_float64 _ | json.v_string _ | json.v_slice _ => true
  | _ => false
  end.

(** [Valid] implies [Bool]: the value is not a valid false. *)
Definition valid_is_true (b : Bool) : Prop :=
  get_Valid b = true -> get_Bool b = true.

(** The keys of an object that [json.Unmarshal] stores into the field
    [Bool] of a [sql.NullBool]. *)
Definition is_Bool_key (k : string) : bool := json.foldName k =? "BOOL".

(** An invalid value that holds no stale true: [Bool] is false when
    [Valid] is. *)
Definition normalised (b : Bool) : Prop :=
  get_Valid b = false -> get_Bool b = false.

(** ** Helper lemmas *)

Lemma Bool_eta (b : Bool) : b = NewBool (get_Bool b) (get_Valid b).
Proof. destruct b as [[x v]]. reflexivity. Qed.

Lemma NewBool_inj (x v x' v' : bool) :
  NewBool x v = NewBool x' v' -> x = x' /\ v = v'.
Proof. intros H. inversion H. split; reflexivity. Qed.

Lemma string_of_bytes_eq (text : list byte) (s : string) :
  string_of_list_byte text = s <-> text = bytes s.
Proof.
  unfold bytes. split; intros H.
  - rewrite <- H. symmetry. apply list_byte_of_string_of_list_byte.
  - rewrite H. apply string_of_list_byte_of_string.
Qed.

Lemma eqb_false_of_neq (s t : string) : s <> t -> (s =? t) = false.
Proof. intros H. apply String.eqb_neq. exact H. Qed.

(** Rewrites every test [s =? t] whose outcome the context decides. *)
Ltac decide_tests :=
  repeat match goal with
    | H : ?s <> ?t |- context [?s =? ?t] => rewrite (eqb_false_of_neq s t H)
    | H : ?s = ?t |- context [?s =? ?t] => rewrite (proj2 (String.eqb_eq s t) H)
    end.

(** Splits [~ In s [t1; ...; tn]] into [s <> t1], ..., [s <> tn]. *)
Ltac split_not_in H :=
  repeat (let N := fresh "N" in apply not_in_cons in H; destruct H as [N H]).

(** Replaces [s] by each string of the list of [H : In s [t1; ...; tn]]. *)
Ltac each_of H :=
  simpl in H;
  repeat (destruct H as [H | H]; [subst | ]); [ .. | contradiction H].

(** ** Serialization *)

(** C1. [MarshalJSON] and [MarshalText] never fail; both return the bytes
    "false" when the value is invalid or false and the bytes "true"
    otherwise, and neither ever returns the token "null". *)
Theorem Marshal_true_or_false (b : Bool) :
  (get_Valid b = false \/ get_Bool b = false ->
     MarshalJSON b = (bytes "false", None) /\ MarshalText b = (bytes "false", None))
  /\ (get_Valid b = true /\ get_Bool b = true ->
     MarshalJSON b = (bytes "true", None) /\ MarshalText b = (bytes "true", None))
  /\ snd (MarshalJSON b) = None /\ snd (MarshalText b) = None
  /\ fst (MarshalJSON b) <> bytes "null" /\ fst (MarshalText b) <> bytes "null".
Proof.
  unfold MarshalJSON, MarshalText.
  destruct (get_Valid b), (get_Bool b); simpl.
  all: repeat split; try discriminate; try reflexivity.
  all: intuition discriminate.
Qed.

Lemma Marshal_true_or_false_witness :
  MarshalJSON (NewBool false true) = (bytes "false", None)
  /\ MarshalText (NewBool true false) = (bytes "false", None)
  /\ MarshalJSON (NewBool true true) = (bytes "true", None)
  /\ MarshalText (NewBool true true) = (bytes "true", None).
Proof.
  split; [| split; [| split]].
  - apply (Marshal_true_or_false (NewBool false true)). right. reflexivity.
  - apply (Marshal_true_or_false (NewBool true false)). left. reflexivity.
  - apply (Marshal_true_or_false (NewBool true true)). split; reflexivity.
  - apply (Marshal_true_or_false (NewBool true true)). split; reflexivity.
Defined.

(** ** The three-valued operators *)

(** C4. [AND], [OR] and [XOR] return the invalid value (false, false) as
    soon as one operand is invalid; on two valid operands the result is
    valid and holds the conjunction, the disjunction and the exclusive
    disjunction of their values. *)
Theorem operators_propagate_invalid (a b : Bool) :
  (get_Valid a = false \/ get_Valid b = false ->
     AND a b = NewBool false false
     /\ OR a b = NewBool false false
     /\ XOR a b = NewBool false false)
  /\ (get_Valid a = true /\ get_Valid b = true ->
     AND a b = NewBool (get_Bool a && get_Bool b) true
     /\ OR a b = NewBool (get_Bool a || get_Bool b) true
     /\ XOR a b =
          NewBool ((get_Bool a || get_Bool b) && negb (get_Bool a && get_Bool b)) true).
Proof.
  unfold AND, OR, XOR. split.
  - intros [H | H]; rewrite H; rewrite ?andb_false_r; simpl; auto.
  - intros [Ha Hb]. rewrite Ha, Hb. simpl. auto.
Qed.

Lemma operators_propagate_invalid_witness :
  XOR (NewBool true false) (NewBool true true) = NewBool false false
  /\ XOR (NewBool true true) (NewBool true true) = NewBool false true
  /\ OR (NewBool false true) (NewBool true true) = NewBool true true
  /\ AND (NewBool false true) (NewBool true true) = NewBool false true.
Proof.
  split; [| split; [| split]].
  - apply (operators_propagate_invalid (NewBool true false) (NewBool true true)).
    left. reflexivity.
  - apply (operators_propagate_invalid (NewBool true true) (NewBool true true)).
    split; reflexivity.
  - apply (operators_propagate_invalid (NewBool false true) (NewBool true true)).
    split; reflexivity.
  - apply (operators_propagate_invalid (NewBool false true) (NewBool true true)).
    split; reflexivity.
Defined.

(** C8. [NON] leaves an invalid receiver as it is, both fields; on a valid
    receiver it negates [Bool] and [Valid] stays true. *)
Theorem NON_frame (b : Bool) :
  (get_Valid b = false -> NON b = b)
  /\ (get_Valid b = true ->
      get_Bool (NON b) = negb (get_Bool b) /\ get_Valid (NON b) = true).
Proof.
  unfold NON. split; intros H; rewrite H.
  - reflexivity.
  - split; [reflexivity | exact H].
Qed.

Lemma NON_frame_witness :
  NON (NewBool true false) = NewBool true false
  /\ get_Bool (NON (NewBool true true)) = false
  /\ get_Valid (NON (NewBool true true)) = true.
Proof.
  split.
  - apply (NON_frame (NewBool true false)). reflexivity.
  - apply (NON_frame (NewBool true true)). reflexivity.
Defined.

(** C10. [NON] called twice gives the receiver back, valid or not. *)
Theorem NON_involutive (b : Bool) : NON (NON b) = b.
Proof.
  destruct b as [[x v]]. destruct v, x; reflexivity.
Qed.

(** ** Construction from strings *)

(** C5. The table of [BoolFromString]: the empty string is the valid false
    value; "1", "true", "True" and "TRUE" are true; "0", "false", "False"
    and "FALSE" are false; every other string, as "yes", is the invalid
    value. *)
Theorem BoolFromString_table :
  BoolFromString "" = NewBool false true
  /\ (forall s, In s ["1"; "true"; "True"; "TRUE"] ->
        BoolFromString s = NewBool true true)
  /\ (forall s, In s ["0"; "false"; "False"; "FALSE"] ->
        BoolFromString s = NewBool false true)
  /\ (forall s,
        ~ In s [""; "1"; "true"; "True"; "TRUE"; "0"; "false"; "False"; "FALSE"] ->
        BoolFromString s = NewBool false false)
  /\ BoolFromString "yes" = NewBool false false.
Proof.
  split; [reflexivity |].
  split; [intros s H; each_of H; reflexivity |].
  split; [intros s H; each_of H; reflexivity |].
  split; [| reflexivity].
  intros s H. split_not_in H. unfold BoolFromString.
  decide_tests. reflexivity.
Qed.

Lemma BoolFromString_table_witness :
  BoolFromString "TRUE" = NewBool true true
  /\ BoolFromString "False" = NewBool false true
  /\ BoolFromString "no" = NewBool false false.
Proof.
  destruct BoolFromString_table as [_ [Ht [Hf [Ho _]]]].
  split; [| split].
  - apply Ht. simpl. tauto.
  - apply Hf. simpl. tauto.
  - apply Ho. simpl. intuition discriminate.
Defined.

(** C6. [NewBoolFromString] returns the invalid value whenever the
    requested validity is false; when it is true, the empty string is the
    invalid value, "1" and "true" are true, "0" and "false" are false, and
    every other string, "True" among them, is the invalid value. *)
Theorem NewBoolFromString_table :
  (forall s, NewBoolFromString s false = NewBool false false)
  /\ NewBoolFromString "" true = NewBool false false
  /\ (forall s, In s ["1"; "true"] -> NewBoolFromString s true = NewBool true true)
  /\ (forall s, In s ["0"; "false"] -> NewBoolFromString s true = NewBool false true)
  /\ (forall s, ~ In s [""; "1"; "true"; "0"; "false"] ->
        NewBoolFromString s true = NewBool false false)
  /\ NewBoolFromString "True" true = NewBool false false.
Proof.
  split; [reflexivity |].
  split; [reflexivity |].
  split; [intros s H; each_of H; reflexivity |].
  split; [intros s H; each_of H; reflexivity |].
  split; [| reflexivity].
  intros s H. split_not_in H. unfold NewBoolFromString.
  decide_tests. reflexivity.
Qed.

Lemma NewBoolFromString_table_witness :
  NewBoolFromString "true" true = NewBool true true
  /\ NewBoolFromString "0" true = NewBool false true
  /\ NewBoolFromString "TRUE" true = NewBool false false.
Proof.
  destruct NewBoolFromString_table as [_ [_ [Ht [Hf [Ho _]]]]].
  split; [| split].
  - apply Ht. simpl. tauto.
  - apply Hf. simpl. tauto.
  - apply Ho. simpl. intuition discriminate.
Defined.

(** ** Decoding text *)

Lemma UnmarshalText_other (b : Bool) (text : list byte) :
  ~ In text [bytes ""; bytes "null"; bytes "true"; bytes "false"] ->
  UnmarshalText b text =
    (NewBool (get_Bool b) false,
     Some (ErrorString ("invalid input:" ++ string_of_list_byte text))).
Proof.
  intros H. split_not_in H.
  repeat match goal with
    | N : text <> bytes ?s |- _ =>
        assert (string_of_list_byte text <> s)
          by (intros E; apply N, string_of_bytes_eq, E);
        clear N
    end.
  unfold UnmarshalText. decide_tests. reflexivity.
Qed.

Lemma literal_dec (text : list byte) :
  {In text [bytes ""; bytes "null"; bytes "true"; bytes "false"]}
  + {~ In text [bytes ""; bytes "null"; bytes "true"; bytes "false"]}.
Proof. apply in_dec, list_eq_dec, Byte.byte_eq_dec. Qed.

(** C3. [UnmarshalText] succeeds on "", "null", "true" and "false" and on
    no other input.  "" and "null" clear [Valid]; "true" gives the valid
    true value; "false" gives [Bool] false and, as [Valid] is set to
    [Bool], [Valid] false; any other input clears [Valid] and returns the
    error "invalid input:" followed by the input. *)
Theorem UnmarshalText_table (b : Bool) (text : list byte) :
  (text = bytes "" \/ text = bytes "null" ->
     UnmarshalText b text = (NewBool (get_Bool b) false, None))
  /\ (text = bytes "true" -> UnmarshalText b text = (NewBool true true, None))
  /\ (text = bytes "false" -> UnmarshalText b text = (NewBool false false, None))
  /\ (~ In text [bytes ""; bytes "null"; bytes "true"; bytes "false"] ->
      UnmarshalText b text =
        (NewBool (get_Bool b) false,
         Some (ErrorString ("invalid input:" ++ string_of_list_byte text))))
  /\ (snd (UnmarshalText b text) = None <->
      In text [bytes ""; bytes "null"; bytes "true"; bytes "false"]).
Proof.
  split; [intros [-> | ->]; reflexivity |].
  split; [intros ->; reflexivity |].
  split; [intros ->; reflexivity |].
  split; [apply UnmarshalText_other |].
  split.
  - intros Hnil. destruct (literal_dec text) as [Hin | Hout]; [exact Hin |].
    rewrite (UnmarshalText_other b text Hout) in Hnil. discriminate Hnil.
  - intros H. each_of H; reflexivity.
Qed.

Lemma UnmarshalText_table_witness :
  UnmarshalText (NewBool true true) (bytes "null") = (NewBool true false, None)
  /\ UnmarshalText (NewBool false false) (bytes "true") = (NewBool true true, None)
  /\ UnmarshalText (NewBool true true) (bytes "false") = (NewBool false false, None)
  /\ UnmarshalText (NewBool true true) (bytes "maybe") =
       (NewBool true false, Some (ErrorString "invalid input:maybe")).
Proof.
  split; [| split; [| split]].
  - apply (UnmarshalText_table (NewBool true true) (bytes "null")).
    right. reflexivity.
  - apply (UnmarshalText_table (NewBool false false) (bytes "true")). reflexivity.
  - apply (UnmarshalText_table (NewBool true true) (bytes "false")). reflexivity.
  - apply (UnmarshalText_table (NewBool true true) (bytes "maybe")).
    simpl. intuition discriminate.
Defined.

(** ** Decoding JSON *)

Section UnmarshalJSON_by_case.

Variables (b : Bool) (data : list byte).

(** The first [json.Unmarshal] fails: its error is returned and the
    receiver is not touched. *)
Lemma UnmarshalJSON_error (err : error) :
  json.Unmarshal_interface data = inl err ->
  UnmarshalJSON b data = (b, Some err).
Proof. intros H. unfold UnmarshalJSON. rewrite H. reflexivity. Qed.

Lemma UnmarshalJSON_nil :
  json.Unmarshal_interface data = inr json.v_nil ->
  UnmarshalJSON b data = (NewBool (get_Bool b) false, None).
Proof. intros H. unfold UnmarshalJSON. rewrite H. reflexivity. Qed.

Lemma UnmarshalJSON_bool (x : bool) :
  json.Unmarshal_interface data = inr (json.v_bool x) ->
  UnmarshalJSON b data = (NewBool x x, None).
Proof. intros H. unfold UnmarshalJSON. rewrite H. reflexivity. Qed.

Lemma UnmarshalJSON_map (ms : list (string * json.any)) :
  json.Unmarshal_interface data = inr (json.v_map ms) ->
  UnmarshalJSON b data =
    (let (nb, err) := json.Unmarshal_NullBool data (NullBool b) in
     (NewBool (sql.Bool nb) (is_nil err && sql.Bool nb), err)).
Proof.
  intros H. unfold UnmarshalJSON. rewrite H.
  destruct (json.Unmarshal_NullBool data (NullBool b)) as [nb err].
  reflexivity.
Qed.

(** The default case of the type switch: a float64, a string or a
    slice. *)
Lemma UnmarshalJSON_default (v : json.any) :
  json.Unmarshal_interface data = inr v ->
  (forall x, v <> json.v_bool x) ->
  (forall ms, v <> json.v_map ms) ->
  v <> json.v_nil ->
  UnmarshalJSON b data =
    (NewBool (get_Bool b) false,
     Some (ErrorString (cannot_unmarshal (json.TypeOf_Name v)))).
Proof.
  intros H Hb Hm Hn. unfold UnmarshalJSON. rewrite H.
  destruct v as [| x | lit | s | es | ms]; try reflexivity.
  - contradiction Hn. reflexivity.
  - contradiction (Hb x). reflexivity.
  - contradiction (Hm ms). reflexivity.
Qed.

End UnmarshalJSON_by_case.

(** C2. When the input is a JSON boolean or a JSON object, [UnmarshalJSON]
    ends with [Valid] set to "no error and [Bool]", so that [Valid] equals
    [Bool] whenever it returns no error.  The object with [Bool] false and
    [Valid] true leaves the receiver invalid.  The input null clears
    [Valid] and succeeds. *)
Theorem UnmarshalJSON_valid_is_value :
  (forall b data v b' err,
      json.Unmarshal_interface data = inr v ->
      (exists x, v = json.v_bool x) \/ (exists ms, v = json.v_map ms) ->
      UnmarshalJSON b data = (b', err) ->
      get_Valid b' = is_nil err && get_Bool b'
      /\ (err = None -> get_Valid b' = get_Bool b'))
  /\ (forall b,
        UnmarshalJSON b (json_text "{'Bool': false, 'Valid': true}") =
          (NewBool false false, None))
  /\ (forall b data,
        json.Unmarshal_interface data = inr json.v_nil ->
        UnmarshalJSON b data = (NewBool (get_Bool b) false, None))
  /\ (forall b, UnmarshalJSON b (bytes "null") = (NewBool (get_Bool b) false, None)).
Proof.
  split; [| split; [| split]].
  - intros b data v b' err Hv Hkind Hres.
    assert (Hvalid : get_Valid b' = is_nil err && get_Bool b').
    { destruct Hkind as [[x ->] | [ms ->]].
      - rewrite (UnmarshalJSON_bool b data x Hv) in Hres.
        inversion Hres. reflexivity.
      - rewrite (UnmarshalJSON_map b data ms Hv) in Hres.
        destruct (json.Unmarshal_NullBool data (NullBool b)) as [nb e].
        inversion Hres. reflexivity. }
    split; [exact Hvalid |].
    intros ->. exact Hvalid.
  - intros [[x v]]. vm_compute. reflexivity.
  - intros b data H. apply UnmarshalJSON_nil, H.
  - intros b. apply UnmarshalJSON_nil. vm_compute. reflexivity.
Qed.

Lemma UnmarshalJSON_valid_is_value_witness :
  (forall b' err,
      UnmarshalJSON (NewBool false true) (json_text "{'Bool': true, 'Valid': false}")
        = (b', err) ->
      get_Valid b' = is_nil err && get_Bool b'
      /\ (err = None -> get_Valid b' = get_Bool b'))
  /\ (forall b' err,
      UnmarshalJSON (NewBool true true) (bytes " false ") = (b', err) ->
      get_Valid b' = is_nil err && get_Bool b'
      /\ (err = None -> get_Valid b' = get_Bool b')).
Proof.
  destruct UnmarshalJSON_valid_is_value as [H _].
  split; intros b' err.
  - apply (H _ _ (json.v_map [("Bool", json.v_bool true); ("Valid", json.v_bool false)])).
    + vm_compute. reflexivity.
    + right. eexists. reflexivity.
  - apply (H _ _ (json.v_bool false)).
    + vm_compute. reflexivity.
    + left. eexists. reflexivity.
Defined.

(** C9. When the input is not a JSON text, [UnmarshalJSON] returns the
    syntax error of [json.Unmarshal] and leaves both fields of its
    receiver as they were; the type-mismatch path, taken by the input 42,
    clears [Valid] instead. *)
Theorem UnmarshalJSON_syntax_error :
  (forall b data,
      json.parse data = None ->
      json.Unmarshal_interface data = inl SyntaxError
      /\ UnmarshalJSON b data = (b, Some SyntaxError))
  /\ get_Valid (fst (UnmarshalJSON (NewBool true true) (bytes "42"))) = false.
Proof.
  split; [| vm_compute; reflexivity].
  intros b data H.
  assert (He : json.Unmarshal_interface data = inl SyntaxError).
  { unfold json.Unmarshal_interface. rewrite H. reflexivity. }
  split; [exact He | apply UnmarshalJSON_error, He].
Qed.

Lemma UnmarshalJSON_syntax_error_witness :
  UnmarshalJSON (NewBool true true) (json_text "{'Bool': tru") =
    (NewBool true true, Some SyntaxError).
Proof.
  destruct UnmarshalJSON_syntax_error as [H _].
  apply (H (NewBool true true) (json_text "{'Bool': tru")).
  vm_compute. reflexivity.
Defined.

(** Counterexample to C7 as stated: the input 42 is decoded as a float64,
    and the error names that type; it names no integer kind. *)
Lemma UnmarshalJSON_42_names_float64 :
  snd (UnmarshalJSON (NewBool true true) (bytes "42")) =
    Some (ErrorString "json: cannot unmarshal float64 into Go value of type zero.Bool")
  /\ ~ (exists name,
          In name integer_kind_names
          /\ snd (UnmarshalJSON (NewBool true true) (bytes "42")) =
               Some (ErrorString (cannot_unmarshal name))).
Proof.
  split; [vm_compute; reflexivity |].
  intros [name [Hin H]].
  unfold integer_kind_names in Hin.
  each_of Hin; vm_compute in H; discriminate H.
Qed.

(** C7, amended. When [json.Unmarshal] stores a float64, a string or a
    slice, [UnmarshalJSON] returns an error of the form "json: cannot
    unmarshal ... into Go value of type zero.Bool", clears [Valid] and
    leaves [Bool] as it was; the error names "float64" for a number and
    "string" for a string.  The input 42 yields the error naming
    float64. *)
Theorem UnmarshalJSON_type_mismatch :
  (forall b data v,
      json.Unmarshal_interface data = inr v ->
      (forall x, v <> json.v_bool x) ->
      (forall ms, v <> json.v_map ms) ->
      v <> json.v_nil ->
      (exists name,
          UnmarshalJSON b data =
            (NewBool (get_Bool b) false, Some (ErrorString (cannot_unmarshal name))))
      /\ (forall lit, v = json.v_float64 lit ->
            snd (UnmarshalJSON b data) = Some (ErrorString (cannot_unmarshal "float64")))
      /\ (forall s, v = json.v_string s ->
            snd (UnmarshalJSON b data) = Some (ErrorString (cannot_unmarshal "string"))))
  /\ (forall b,
        UnmarshalJSON b (bytes "42") =
          (NewBool (get_Bool b) false,
           Some (ErrorString
                   "json: cannot unmarshal float64 into Go value of type zero.Bool"))).
Proof.
  split.
  - intros b data v Hv Hb Hm Hn.
    pose proof (UnmarshalJSON_default b data v Hv Hb Hm Hn) as H.
    split; [eexists; exact H |].
    split; intros ? ->; rewrite H; reflexivity.
  - intros b.
    rewrite (UnmarshalJSON_default b (bytes "42") (json.v_float64 "42")).
    + reflexivity.
    + vm_compute. reflexivity.
    + discriminate.
    + discriminate.
    + discriminate.
Qed.

Lemma UnmarshalJSON_type_mismatch_witness :
  snd (UnmarshalJSON (NewBool true true) (bytes "-1.5e3")) =
    Some (ErrorString (cannot_unmarshal "float64"))
  /\ snd (UnmarshalJSON (NewBool true true) (json_text "'true'")) =
       Some (ErrorString (cannot_unmarshal "string"))
  /\ (exists name,
        UnmarshalJSON (NewBool true true) (bytes "[true]") =
          (NewBool true false, Some (ErrorString (cannot_unmarshal name)))).
Proof.
  destruct UnmarshalJSON_type_mismatch as [H _].
  split; [| split].
  - refine (proj1 (proj2 (H _ _ (json.v_float64 "-1.5e3") _ _ _ _)) _ eq_refl);
      [vm_compute; reflexivity | discriminate ..].
  - refine (proj2 (proj2 (H _ _ (json.v_string "true") _ _ _ _)) _ eq_refl);
      [vm_compute; reflexivity | discriminate ..].
  - refine (proj1 (H (NewBool true true) _ (json.v_slice [json.v_bool true]) _ _ _ _));
      [vm_compute; reflexivity | discriminate ..].
Defined.

(** A slice type has no name: the error for an array names nothing. *)
Example UnmarshalJSON_array :
  UnmarshalJSON (NewBool true true) (bytes "[]") =
    (NewBool true false,
     Some (ErrorString "json: cannot unmarshal  into Go value of type zero.Bool")).
Proof. vm_compute. reflexivity. Qed.

(** A number out of the range of float64 is a JSON text that the first
    [json.Unmarshal] refuses: its error is returned and the receiver is
    not touched. *)
Example UnmarshalJSON_number_out_of_range :
  UnmarshalJSON (NewBool true true) (bytes "1e999") =
    (NewBool true true, Some (UnmarshalTypeError "number 1e999" "float64")).
Proof. vm_compute. reflexivity. Qed.

(** Field names match up to case, and the last member wins. *)
Example UnmarshalJSON_object_fields :
  UnmarshalJSON (NewBool false false)
    (json_text "{'valid': false, 'BOOL': false, 'other': [1, {}], 'bool': true}") =
    (NewBool true true, None).
Proof. vm_compute. reflexivity. Qed.

(** A member of the wrong type is an error, and [Valid] is cleared. *)
Example UnmarshalJSON_object_type_error :
  UnmarshalJSON (NewBool false false) (json_text "{'Bool': true, 'Valid': 1}") =
    (NewBool true false, Some (UnmarshalTypeError "number" "bool")).
Proof. vm_compute. reflexivity. Qed.

(** ** Accessors *)

Lemma IsZero_iff (b : Bool) :
  IsZero b = true <-> get_Valid b = false \/ get_Bool b = false.
Proof.
  unfold IsZero. destruct (get_Valid b), (get_Bool b); simpl; intuition discriminate.
Qed.

(** Both encoders write "false" exactly for the values [IsZero] accepts. *)
Lemma MarshalJSON_IsZero (b : Bool) :
  MarshalJSON b = (bytes (if IsZero b then "false" else "true"), None).
Proof. unfold MarshalJSON, IsZero. destruct (negb _ || negb _); reflexivity. Qed.

(** Decoding false and decoding null both encode as false. *)
Lemma decode_encode_collapse (b : Bool) :
  fst (MarshalJSON (fst (UnmarshalJSON b (bytes "false")))) = bytes "false"
  /\ fst (MarshalJSON (fst (UnmarshalJSON b (bytes "null")))) = bytes "false".
Proof. destruct b as [[x v]]. split; vm_compute; reflexivity. Qed.

Lemma Ptr_valid (b : Bool) :
  Ptr b = if get_Valid b then Some (get_Bool b) else None.
Proof. unfold Ptr. destruct (get_Valid b); reflexivity. Qed.

Lemma OverwriteWithIfValid_invalid (s : Bool) (st : bool) :
  OverwriteWithIfValid s st false = s.
Proof. reflexivity. Qed.

Lemma BoolFromStringExist_table (s : string) (b : bool) :
  BoolFromStringExist s b = NewBool (negb (s =? "") && b) true.
Proof. unfold BoolFromStringExist. destruct (s =? ""), b; reflexivity. Qed.

(** ** Where the errors come from *)

Lemma store_bool_error (cur : bool) (v : json.any) (e : error) :
  snd (json.store_bool cur v) = Some e -> Error e = None.
Proof. destruct v; simpl; intros H; inversion H; reflexivity. Qed.

(** Decoding an object saves errors of [encoding/json] only. *)
Lemma object_NullBool_error (ms : list (string * json.any)) :
  forall (nb : sql.NullBool) (saved : option error) (e : error),
    (forall e0, saved = Some e0 -> Error e0 = None) ->
    snd (json.object_NullBool ms nb saved) = Some e ->
    Error e = None.
Proof.
  induction ms as [| [k v] ms IH]; intros nb saved e Hsaved H; simpl in H.
  - apply Hsaved, H.
  - assert (Hstep : forall cur e0,
               json.saveError saved (snd (json.store_bool cur v)) = Some e0 ->
               Error e0 = None).
    { intros cur e0. destruct saved as [e1 |]; simpl.
      - apply Hsaved.
      - apply store_bool_error. }
    destruct (json.foldName k =? "BOOL").
    + destruct (json.store_bool (sql.Bool nb) v) as [x e1] eqn:E.
      apply (IH _ _ e) in H; [exact H |].
      intros e0. specialize (Hstep (sql.Bool nb) e0). rewrite E in Hstep. exact Hstep.
    + destruct (json.foldName k =? "VALID").
      * destruct (json.store_bool (sql.Valid nb) v) as [x e1] eqn:E.
        apply (IH _ _ e) in H; [exact H |].
        intros e0. specialize (Hstep (sql.Valid nb) e0). rewrite E in Hstep.
        exact Hstep.
      * apply (IH _ _ e) in H; [exact H | exact Hsaved].
Qed.

Lemma Unmarshal_NullBool_error (data : list byte) (nb : sql.NullBool) (e : error) :
  snd (json.Unmarshal_NullBool data nb) = Some e -> Error e = None.
Proof.
  unfold json.Unmarshal_NullBool.
  destruct (json.parse data) as [v |]; [| intros H; inversion H; reflexivity].
  destruct v; try (intros H; inversion H; reflexivity).
  apply object_NullBool_error. intros e0 H. discriminate H.
Qed.

Lemma Unmarshal_interface_error (data : list byte) (e : error) :
  json.Unmarshal_interface data = inl e -> Error e = None.
Proof.
  unfold json.Unmarshal_interface.
  destruct (json.parse data) as [v |]; [| intros H; inversion H; reflexivity].
  destruct (json.out_of_range v); intros H; inversion H; reflexivity.
Qed.

(** [UnmarshalJSON] returns an error made by [fmt.Errorf] only from the
    default case of its type switch; every other error is the one of
    [json.Unmarshal]. *)
Lemma UnmarshalJSON_mismatch_only_default (b b' : Bool) (data : list byte) (msg : string) :
  UnmarshalJSON b data = (b', Some (ErrorString msg)) ->
  exists v,
    json.Unmarshal_interface data = inr v
    /\ is_default v = true
    /\ msg = cannot_unmarshal (json.TypeOf_Name v)
    /\ b' = NewBool (get_Bool b) false.
Proof.
  intros H.
  destruct (json.Unmarshal_interface data) as [e | v] eqn:Hv.
  - rewrite (UnmarshalJSON_error b data e Hv) in H. inversion H; subst.
    apply Unmarshal_interface_error in Hv. discriminate Hv.
  - exists v. split; [reflexivity |].
    destruct v as [| x | lit | s | es | ms].
    + rewrite (UnmarshalJSON_nil b data Hv) in H. discriminate H.
    + rewrite (UnmarshalJSON_bool b data x Hv) in H. discriminate H.
    + rewrite (UnmarshalJSON_default b data _ Hv) in H by discriminate.
      inversion H. auto.
    + rewrite (UnmarshalJSON_default b data _ Hv) in H by discriminate.
      inversion H. auto.
    + rewrite (UnmarshalJSON_default b data _ Hv) in H by discriminate.
      inversion H. auto.
    + rewrite (UnmarshalJSON_map b data ms Hv) in H.
      destruct (json.Unmarshal_NullBool data (NullBool b)) as [nb e] eqn:E.
      inversion H; subst.
      pose proof (Unmarshal_NullBool_error data (NullBool b) (ErrorString msg)) as N.
      rewrite E in N. specialize (N eq_refl). discriminate N.
Qed.

(** The object of the shape of [sql.NullBool]: [Valid] follows [Bool],
    whatever the object says of [Valid]. *)
Lemma UnmarshalJSON_NullBool_shape (b : Bool) (x y : bool) :
  UnmarshalJSON b
    (json_text ("{'Bool': " ++ literal x ++ ", 'Valid': " ++ literal y ++ "}")) =
    (NewBool x x, None).
Proof. destruct b as [[x0 v0]], x, y; vm_compute; reflexivity. Qed.

(** * Further properties of the package *)

(** Splits every [Bool] of the context into its two fields, and every
    boolean into its two values. *)
Ltac by_fields :=
  repeat match goal with b : Bool |- _ => destruct b as [[? ?]] end;
  repeat match goal with x : bool |- _ => destruct x end.

(** ** Pointers and accessors *)

(** [BoolFromPtr] and [Ptr]: a pointer survives the round trip; a value
    survives it unless it is invalid with a stale true in [Bool]. *)
Theorem Ptr_BoolFromPtr_round_trip :
  (forall p : option bool, Ptr (BoolFromPtr p) = p)
  /\ (forall b : Bool,
        BoolFromPtr (Ptr b) = (if get_Valid b then b else NewBool false false))
  /\ (forall b : Bool,
        BoolFromPtr (Ptr b) = b <-> get_Valid b = true \/ get_Bool b = false)
  /\ (forall x : bool, BoolFromPtr (Some x) = BoolFrom x).
Proof.
  split; [intros [[|] |]; reflexivity |].
  split; [intros b; by_fields; reflexivity |].
  split; [| reflexivity].
  intros b; by_fields; cbn; intuition discriminate.
Qed.

(** [SetValid] forgets the receiver: the result is [BoolFrom v], whose
    pointer is [v] and which is zero exactly when [v] is false. *)
Theorem SetValid_overwrites (b : Bool) (v : bool) :
  SetValid b v = BoolFrom v
  /\ Ptr (SetValid b v) = Some v
  /\ IsZero (SetValid b v) = negb v
  /\ fst (MarshalJSON (SetValid b v)) = bytes (literal v).
Proof. by_fields; repeat split; reflexivity. Qed.

(** [IsZero], [Ptr] and the encoders agree: a value is zero when it is
    invalid or false, that is when its pointer is not a true, that is when
    it is written as false. *)
Theorem IsZero_Ptr_Marshal (b : Bool) :
  (IsZero b = true <-> get_Valid b = false \/ get_Bool b = false)
  /\ (IsZero b = false <-> Ptr b = Some true)
  /\ (IsZero b = true <-> fst (MarshalJSON b) = bytes "false")
  /\ (IsZero b = true <-> fst (MarshalText b) = bytes "false").
Proof. by_fields; cbn; intuition discriminate. Qed.

(** [OverwriteWithIfValid] with the fields of a candidate [c]: the result
    is [c] when [c] is valid and the receiver otherwise; it is valid when
    either is, and overwriting a second time changes nothing. *)
Theorem OverwriteWithIfValid_merge (s c : Bool) :
  let r := OverwriteWithIfValid s (get_Bool c) (get_Valid c) in
  r = (if get_Valid c then c else s)
  /\ get_Valid r = get_Valid s || get_Valid c
  /\ OverwriteWithIfValid r (get_Bool c) (get_Valid c) = r.
Proof. by_fields; repeat split; reflexivity. Qed.

(** ** The algebra of the operators *)

(** [AND], [OR] and [XOR] are commutative and associative, also on
    invalid operands. *)
Theorem operators_commutative_associative (a b c : Bool) :
  AND a b = AND b a /\ OR a b = OR b a /\ XOR a b = XOR b a
  /\ AND (AND a b) c = AND a (AND b c)
  /\ OR (OR a b) c = OR a (OR b c)
  /\ XOR (XOR a b) c = XOR a (XOR b c).
Proof. by_fields; repeat split; reflexivity. Qed.

(** De Morgan's laws hold for [NON], [AND] and [OR], also on invalid
    operands. *)
Theorem De_Morgan (a b : Bool) :
  NON (AND a b) = OR (NON a) (NON b)
  /\ NON (OR a b) = AND (NON a) (NON b).
Proof. by_fields; split; reflexivity. Qed.

(** [XOR] is [OR] without [AND]; a value [XOR]ed with itself is false,
    and stays as valid as it was. *)
Theorem XOR_from_AND_OR_NON (a b : Bool) :
  XOR a b = AND (OR a b) (NON (AND a b))
  /\ XOR a a = NewBool false (get_Valid a).
Proof. by_fields; split; reflexivity. Qed.

(** On a valid operand the valid true is the unit of [AND], the valid
    false the unit of [OR] and of [XOR], and [XOR] with the valid true is
    [NON]. *)
Theorem operators_units (b : Bool) :
  get_Valid b = true ->
  AND (BoolFrom true) b = b /\ OR (BoolFrom false) b = b
  /\ XOR (BoolFrom false) b = b /\ XOR (BoolFrom true) b = NON b
  /\ AND (BoolFrom false) b = BoolFrom false
  /\ OR (BoolFrom true) b = BoolFrom true.
Proof.
  intros H. destruct b as [[x v]]. cbn in H. subst v.
  destruct x; repeat split; reflexivity.
Qed.

Lemma operators_units_witness :
  AND (BoolFrom true) (NewBool false true) = NewBool false true
  /\ OR (BoolFrom false) (NewBool false true) = NewBool false true
  /\ XOR (BoolFrom false) (NewBool false true) = NewBool false true
  /\ XOR (BoolFrom true) (NewBool false true) = NON (NewBool false true)
  /\ AND (BoolFrom false) (NewBool false true) = BoolFrom false
  /\ OR (BoolFrom true) (NewBool false true) = BoolFrom true.
Proof. apply (operators_units (NewBool false true)). reflexivity. Defined.

(** [AND] commutes with the encoders: the conjunction is written as true
    exactly when both operands are.  [OR] is written as true exactly when
    both operands are valid and one of them is true. *)
Theorem operators_encoded (a b : Bool) :
  IsZero (AND a b) = IsZero a || IsZero b
  /\ (fst (MarshalJSON (AND a b)) = bytes "true" <->
      fst (MarshalJSON a) = bytes "true" /\ fst (MarshalJSON b) = bytes "true")
  /\ (fst (MarshalJSON (OR a b)) = bytes "true" <->
      get_Valid a = true /\ get_Valid b = true
      /\ (get_Bool a = true \/ get_Bool b = true)).
Proof. by_fields; cbn; intuition discriminate. Qed.

(** ** The constructors from strings, compared *)

(** With a true [valid], [NewBoolFromString] and [BoolFromString] differ
    on exactly five strings: the empty string and the capitalised and
    upper-case spellings. *)
Theorem NewBoolFromString_vs_BoolFromString (s : string) :
  NewBoolFromString s true = BoolFromString s <->
  ~ In s [""; "True"; "TRUE"; "False"; "FALSE"].
Proof.
  destruct (in_dec string_dec s
              [""; "1"; "true"; "True"; "TRUE"; "0"; "false"; "False"; "FALSE"])
    as [Hin | Hout].
  - each_of Hin; cbn; split; intros H;
      solve [ discriminate H
            | intuition discriminate
            | reflexivity
            | exfalso; apply H; tauto ].
  - split; intros _.
    + intros H. apply Hout. cbn in H |- *. tauto.
    + split_not_in Hout. unfold NewBoolFromString, BoolFromString.
      decide_tests. reflexivity.
Qed.

(** [BoolFromStringExist] always returns a valid value; it is true
    exactly when the string is not empty and the flag is true. *)
Theorem BoolFromStringExist_valid (s : string) (b : bool) :
  get_Valid (BoolFromStringExist s b) = true
  /\ (get_Bool (BoolFromStringExist s b) = true <-> s <> "" /\ b = true)
  /\ Ptr (BoolFromStringExist s b) <> None.
Proof.
  unfold BoolFromStringExist.
  destruct (String.eqb_spec s "") as [-> | N]; destruct b; cbn;
    repeat split; try discriminate; try reflexivity; try tauto;
    intros [? ?]; try discriminate; contradiction.
Qed.

(** ** Encoding, then decoding *)

(** What [MarshalText] writes, [UnmarshalText] reads without error,
    whatever the receiver: the result is the valid true when the value was
    valid and true, and the invalid false otherwise.  The value itself
    comes back exactly when its [Valid] equals its [Bool]; encoding the
    result gives the same bytes again. *)
Theorem MarshalText_UnmarshalText (b0 b : Bool) :
  let r := UnmarshalText b0 (fst (MarshalText b)) in
  r = (NewBool (negb (IsZero b)) (negb (IsZero b)), None)
  /\ (fst r = b <-> get_Valid b = get_Bool b)
  /\ MarshalText (fst r) = MarshalText b.
Proof.
  destruct b as [[x v]]. destruct x, v; cbn.
  all: repeat split; try reflexivity; try discriminate.
  all: intros H; inversion H.
Qed.

(** The same through JSON: what [MarshalJSON] writes, [UnmarshalJSON]
    reads without error, as the valid true or as the invalid false. *)
Theorem MarshalJSON_UnmarshalJSON (b0 b : Bool) :
  let r := UnmarshalJSON b0 (fst (MarshalJSON b)) in
  r = (NewBool (negb (IsZero b)) (negb (IsZero b)), None)
  /\ (fst r = b <-> get_Valid b = get_Bool b)
  /\ MarshalJSON (fst r) = MarshalJSON b.
Proof.
  destruct b as [[x v]]. destruct x, v.
  all: unfold MarshalJSON; cbn [get_Valid get_Bool NullBool sql.Valid sql.Bool
                                 negb orb fst].
  all: match goal with
       | |- context [UnmarshalJSON ?r0 (list_byte_of_string ?s)] =>
           rewrite (UnmarshalJSON_bool r0 (list_byte_of_string s)
                      (if s =? "true" then true else false))
             by (vm_compute; reflexivity)
       end.
  all: cbn; repeat split; try reflexivity; try discriminate.
  all: intros H; inversion H.
Qed.

(** ** What the decoders keep and what they never return *)

(** [UnmarshalText] never leaves a valid false behind.  Nor does
    [UnmarshalJSON] once the input is JSON; on other input it returns its
    receiver, so that it keeps the property when the receiver has it. *)
Theorem Unmarshal_never_valid_false :
  (forall b text, valid_is_true (fst (UnmarshalText b text)))
  /\ (forall b data v,
        json.Unmarshal_interface data = inr v ->
        valid_is_true (fst (UnmarshalJSON b data)))
  /\ (forall b data, valid_is_true b -> valid_is_true (fst (UnmarshalJSON b data))).
Proof.
  assert (J : forall b data v,
             json.Unmarshal_interface data = inr v ->
             valid_is_true (fst (UnmarshalJSON b data))).
  { intros b data v Hv. unfold valid_is_true.
    destruct v as [| x | lit | s | es | ms].
    - rewrite (UnmarshalJSON_nil b data Hv). discriminate.
    - rewrite (UnmarshalJSON_bool b data x Hv). intros H. exact H.
    - rewrite (UnmarshalJSON_default b data _ Hv) by discriminate. discriminate.
    - rewrite (UnmarshalJSON_default b data _ Hv) by discriminate. discriminate.
    - rewrite (UnmarshalJSON_default b data _ Hv) by discriminate. discriminate.
    - rewrite (UnmarshalJSON_map b data ms Hv).
      destruct (json.Unmarshal_NullBool data (NullBool b)) as [nb e]. cbn.
      intros H. apply andb_true_iff in H. apply H. }
  split; [| split; [exact J |]].
  - intros b text. unfold valid_is_true.
    destruct (literal_dec text) as [Hin | Hout].
    + each_of Hin; cbn; intros H; solve [discriminate H | reflexivity].
    + rewrite (UnmarshalText_other b text Hout). discriminate.
  - intros b data Hb.
    destruct (json.Unmarshal_interface data) as [e | v] eqn:Hv.
    + rewrite (UnmarshalJSON_error b data e Hv). exact Hb.
    + exact (J b data v Hv).
Qed.

Lemma Unmarshal_never_valid_false_witness :
  valid_is_true (fst (UnmarshalJSON (NewBool false true)
                        (json_text "{'Bool': false, 'Valid': true}")))
  /\ valid_is_true (fst (UnmarshalJSON (NewBool true true) (bytes "tru"))).
Proof.
  destruct Unmarshal_never_valid_false as [_ [H1 H2]].
  split.
  - apply (H1 _ _ (json.v_map [("Bool", json.v_bool false); ("Valid", json.v_bool true)])).
    vm_compute. reflexivity.
  - apply H2. intros _. reflexivity.
Defined.

(** On every input but the empty one that [UnmarshalText] accepts,
    [UnmarshalJSON] returns the same result.  The empty input, which
    [UnmarshalText] reads as null, is a syntax error for [UnmarshalJSON]. *)
Theorem UnmarshalText_agrees_with_UnmarshalJSON :
  (forall b text,
      text <> [] ->
      snd (UnmarshalText b text) = None ->
      UnmarshalJSON b text = UnmarshalText b text)
  /\ (forall b,
        UnmarshalText b [] = (NewBool (get_Bool b) false, None)
        /\ UnmarshalJSON b [] = (b, Some SyntaxError)).
Proof.
  split.
  - intros b text Hne Hok.
    destruct (literal_dec text) as [Hin | Hout].
    + destruct b as [[x v]].
      each_of Hin; solve [contradiction Hne; reflexivity | vm_compute; reflexivity].
    + rewrite (UnmarshalText_other b text Hout) in Hok. discriminate Hok.
  - intros [[x v]]. split; vm_compute; reflexivity.
Qed.

Lemma UnmarshalText_agrees_with_UnmarshalJSON_witness :
  UnmarshalJSON (NewBool true true) (bytes "false") =
    UnmarshalText (NewBool true true) (bytes "false").
Proof.
  destruct UnmarshalText_agrees_with_UnmarshalJSON as [H _].
  apply H; [discriminate | reflexivity].
Defined.

(** ** Objects, member by member *)

Lemma Unmarshal_interface_parse (data : list byte) (v : json.any) :
  json.Unmarshal_interface data = inr v -> json.parse data = Some v.
Proof.
  unfold json.Unmarshal_interface.
  destruct (json.parse data) as [w |]; [| discriminate].
  destruct (json.out_of_range w); [discriminate |].
  intros H. inversion H. reflexivity.
Qed.

(** [UnmarshalJSON] on an object, in terms of the members. *)
Lemma UnmarshalJSON_object (b : Bool) (data : list byte) (ms : list (string * json.any)) :
  json.Unmarshal_interface data = inr (json.v_map ms) ->
  UnmarshalJSON b data =
    (let r := json.object_NullBool ms (NullBool b) None in
     (NewBool (sql.Bool (fst r)) (is_nil (snd r) && sql.Bool (fst r)), snd r)).
Proof.
  intros H. rewrite (UnmarshalJSON_map b data ms H).
  unfold json.Unmarshal_NullBool. rewrite (Unmarshal_interface_parse data _ H).
  destruct (json.object_NullBool ms (NullBool b) None) as [nb e]. reflexivity.
Qed.

(** A member either sets the field, whatever it held, or leaves it as it
    is, with or without an error. *)
Lemma store_bool_cases (v : json.any) :
  (exists x, forall cur, json.store_bool cur v = (x, None))
  \/ (exists e, forall cur, json.store_bool cur v = (cur, e)).
Proof.
  destruct v as [| x | lit | s | es | ms];
    solve [left; eexists; intros; reflexivity | right; eexists; intros; reflexivity].
Qed.

(** The error of an object does not depend on the struct it is decoded
    into. *)
Lemma object_NullBool_snd (ms : list (string * json.any)) :
  forall nb nb' saved,
    snd (json.object_NullBool ms nb saved) = snd (json.object_NullBool ms nb' saved).
Proof.
  induction ms as [| [k v] ms IH]; intros nb nb' saved; simpl; [reflexivity |].
  destruct (store_bool_cases v) as [[x H] | [e H]];
    destruct (json.foldName k =? "BOOL"); [| destruct (json.foldName k =? "VALID") | |];
    rewrite ?H; try apply IH.
  destruct (json.foldName k =? "VALID"); rewrite ?H; apply IH.
Qed.

(** The field [Bool] after an object depends on the field [Bool] before
    it only. *)
Lemma object_NullBool_Bool (ms : list (string * json.any)) :
  forall nb nb' saved saved',
    sql.Bool nb = sql.Bool nb' ->
    sql.Bool (fst (json.object_NullBool ms nb saved)) =
      sql.Bool (fst (json.object_NullBool ms nb' saved')).
Proof.
  induction ms as [| [k v] ms IH]; intros nb nb' saved saved' E; simpl; [exact E |].
  destruct (store_bool_cases v) as [[x H] | [e H]];
    destruct (json.foldName k =? "BOOL"); [| destruct (json.foldName k =? "VALID") | |];
    rewrite ?H; try (apply IH; simpl; congruence).
  destruct (json.foldName k =? "VALID"); rewrite ?H; apply IH; simpl; congruence.
Qed.

(** An object either leaves the field [Bool] as it is or sets it to one
    value, whatever it held. *)
Lemma object_NullBool_keeps_or_sets (ms : list (string * json.any)) :
  (forall nb saved, sql.Bool (fst (json.object_NullBool ms nb saved)) = sql.Bool nb)
  \/ (exists c, forall nb saved, sql.Bool (fst (json.object_NullBool ms nb saved)) = c).
Proof.
  induction ms as [| [k v] ms IH]; [left; reflexivity |].
  destruct IH as [Keep | [c Set_]].
  - simpl. destruct (json.foldName k =? "BOOL").
    + destruct (store_bool_cases v) as [[x H] | [e H]].
      * right. exists x. intros nb saved. rewrite H. rewrite Keep. reflexivity.
      * left. intros nb saved. rewrite H. rewrite Keep. reflexivity.
    + left. intros nb saved. destruct (json.foldName k =? "VALID").
      * destruct (json.store_bool (sql.Valid nb) v) as [y e]. rewrite Keep. reflexivity.
      * apply Keep.
  - right. exists c. intros nb saved. simpl.
    destruct (json.foldName k =? "BOOL").
    + destruct (json.store_bool (sql.Bool nb) v) as [y e]. apply Set_.
    + destruct (json.foldName k =? "VALID").
      * destruct (json.store_bool (sql.Valid nb) v) as [y e]. apply Set_.
      * apply Set_.
Qed.

Lemma object_NullBool_without_Bool (ms : list (string * json.any)) :
  (forall k v, In (k, v) ms -> is_Bool_key k = false) ->
  forall nb saved, sql.Bool (fst (json.object_NullBool ms nb saved)) = sql.Bool nb.
Proof.
  unfold is_Bool_key.
  induction ms as [| [k v] ms IH]; intros Hk nb saved; simpl; [reflexivity |].
  rewrite (Hk k v) by (left; reflexivity).
  assert (Hk' : forall k0 v0, In (k0, v0) ms -> (json.foldName k0 =? "BOOL") = false)
    by (intros k0 v0 Hin; apply (Hk k0 v0); right; exact Hin).
  destruct (json.foldName k =? "VALID").
  - destruct (json.store_bool (sql.Valid nb) v) as [y e]. rewrite (IH Hk'). reflexivity.
  - apply (IH Hk').
Qed.

(** An object with no member for [Bool]: the receiver keeps its [Bool],
    and without an error [Valid] becomes that [Bool], so that an invalid
    receiver holding a true becomes valid. *)
Theorem UnmarshalJSON_object_without_Bool
  (b : Bool) (data : list byte) (ms : list (string * json.any)) :
  json.Unmarshal_interface data = inr (json.v_map ms) ->
  (forall k v, In (k, v) ms -> is_Bool_key k = false) ->
  get_Bool (fst (UnmarshalJSON b data)) = get_Bool b
  /\ (snd (UnmarshalJSON b data) = None ->
      UnmarshalJSON b data = (NewBool (get_Bool b) (get_Bool b), None)).
Proof.
  intros Hv Hk. rewrite (UnmarshalJSON_object b data ms Hv). cbn zeta.
  pose proof (object_NullBool_without_Bool ms Hk (NullBool b) None) as E.
  cbn [fst snd get_Bool NewBool NullBool sql.Bool]. rewrite E.
  split; [reflexivity |].
  intros ->. reflexivity.
Qed.

Lemma UnmarshalJSON_object_without_Bool_witness :
  UnmarshalJSON (NewBool true false) (json_text "{'Valid': false, 'x': [1]}") =
    (NewBool true true, None).
Proof.
  refine (proj2 (UnmarshalJSON_object_without_Bool (NewBool true false)
                   (json_text "{'Valid': false, 'x': [1]}")
                   [("Valid", json.v_bool false);
                    ("x", json.v_slice [json.v_float64 "1"])] _ _) _).
  - vm_compute. reflexivity.
  - intros k v H. simpl in H.
    destruct H as [H | [H | H]]; [inversion H | inversion H | contradiction H];
      reflexivity.
  - vm_compute. reflexivity.
Defined.

(** Neither decoder reads the [Valid] of its receiver: [UnmarshalText]
    never, [UnmarshalJSON] as soon as its input is JSON. *)
Theorem Unmarshal_ignores_receiver_Valid (x v v' : bool) :
  (forall text,
      UnmarshalText (NewBool x v) text = UnmarshalText (NewBool x v') text)
  /\ (forall data w,
        json.Unmarshal_interface data = inr w ->
        UnmarshalJSON (NewBool x v) data = UnmarshalJSON (NewBool x v') data).
Proof.
  split.
  - intros text. unfold UnmarshalText.
    destruct ((_ =? "") || (_ =? "null")); [reflexivity |].
    destruct (_ =? "true"); [reflexivity |].
    destruct (_ =? "false"); reflexivity.
  - intros data w Hw. destruct w as [| y | lit | s | es | ms].
    + rewrite !(UnmarshalJSON_nil _ data Hw). reflexivity.
    + rewrite !(UnmarshalJSON_bool _ data y Hw). reflexivity.
    + rewrite !(UnmarshalJSON_default _ data _ Hw) by discriminate. reflexivity.
    + rewrite !(UnmarshalJSON_default _ data _ Hw) by discriminate. reflexivity.
    + rewrite !(UnmarshalJSON_default _ data _ Hw) by discriminate. reflexivity.
    + rewrite !(UnmarshalJSON_object _ data ms Hw). cbn zeta.
      rewrite (object_NullBool_snd ms (NullBool (NewBool x v)) (NullBool (NewBool x v')) None).
      rewrite (object_NullBool_Bool ms (NullBool (NewBool x v))
                 (NullBool (NewBool x v')) None None eq_refl).
      reflexivity.
Qed.

Lemma Unmarshal_ignores_receiver_Valid_witness :
  UnmarshalJSON (NewBool true true) (json_text "{'Valid': 'yes'}") =
    UnmarshalJSON (NewBool true false) (json_text "{'Valid': 'yes'}").
Proof.
  refine (proj2 (Unmarshal_ignores_receiver_Valid true true false) _
            (json.v_map [("Valid", json.v_string "yes")]) _).
  vm_compute. reflexivity.
Defined.

(** Decoding the same input a second time changes nothing: both decoders
    are idempotent, on accepted and on refused input. *)
Theorem Unmarshal_idempotent (b : Bool) :
  (forall text,
      UnmarshalText (fst (UnmarshalText b text)) text = UnmarshalText b text)
  /\ (forall data,
        UnmarshalJSON (fst (UnmarshalJSON b data)) data = UnmarshalJSON b data).
Proof.
  split.
  - intros text. destruct (literal_dec text) as [Hin | Hout].
    + destruct b as [[x v]]. each_of Hin; vm_compute; reflexivity.
    + rewrite (UnmarshalText_other b text Hout). cbn [fst].
      rewrite (UnmarshalText_other _ text Hout). reflexivity.
  - intros data.
    destruct (json.Unmarshal_interface data) as [e | w] eqn:Hw.
    + rewrite !(UnmarshalJSON_error _ data e Hw). reflexivity.
    + destruct w as [| y | lit | s | es | ms].
      * rewrite !(UnmarshalJSON_nil _ data Hw). reflexivity.
      * rewrite !(UnmarshalJSON_bool _ data y Hw). reflexivity.
      * rewrite !(UnmarshalJSON_default _ data _ Hw) by discriminate. reflexivity.
      * rewrite !(UnmarshalJSON_default _ data _ Hw) by discriminate. reflexivity.
      * rewrite !(UnmarshalJSON_default _ data _ Hw) by discriminate. reflexivity.
      * rewrite !(UnmarshalJSON_object _ data ms Hw). cbn zeta. cbn [fst].
        set (r := json.object_NullBool ms (NullBool b) None).
        set (b1 := NewBool (sql.Bool (fst r)) (is_nil (snd r) && sql.Bool (fst r))).
        rewrite (object_NullBool_snd ms (NullBool b1) (NullBool b) None).
        fold r.
        assert (E : sql.Bool (fst (json.object_NullBool ms (NullBool b1) None)) =
                      sql.Bool (fst r)).
        { destruct (object_NullBool_keeps_or_sets ms) as [Keep | [c Set_]].
          - rewrite Keep. reflexivity.
          - unfold r. rewrite !Set_. reflexivity. }
        rewrite E. reflexivity.
Qed.

(** ** White space *)

Lemma lex_leading_space (ws data : list byte) (out_rev : list json.token) :
  forallb json.is_space ws = true ->
  json.lex json.InValue out_rev (ws ++ data) = json.lex json.InValue out_rev data.
Proof.
  induction ws as [| c ws IH]; intros H; [reflexivity |].
  simpl in H. apply andb_true_iff in H. destruct H as [Hc Hws].
  simpl. unfold json.lex_value. rewrite Hc. apply IH, Hws.
Qed.

(** [UnmarshalJSON] skips the white space before the value.
    [UnmarshalText] does not: an input that starts with white space is an
    error. *)
Theorem UnmarshalJSON_leading_space (b : Bool) (ws data : list byte) :
  forallb json.is_space ws = true ->
  UnmarshalJSON b (ws ++ data) = UnmarshalJSON b data
  /\ (ws <> [] -> snd (UnmarshalText b (ws ++ data)) <> None).
Proof.
  intros H. split.
  - assert (P : json.parse (ws ++ data) = json.parse data).
    { unfold json.parse. rewrite (lex_leading_space ws data [] H). reflexivity. }
    unfold UnmarshalJSON, json.Unmarshal_interface, json.Unmarshal_NullBool.
    rewrite P. reflexivity.
  - intros Hne. destruct ws as [| c ws]; [contradiction Hne; reflexivity |].
    simpl in H. apply andb_true_iff in H. destruct H as [Hc _].
    rewrite UnmarshalText_other; [discriminate |].
    intros Hin. simpl in Hin.
    destruct Hin as [E | [E | [E | [E | []]]]];
      inversion E; subst c; discriminate Hc.
Qed.

Lemma UnmarshalJSON_leading_space_witness :
  UnmarshalJSON (NewBool false false) (bytes "  " ++ bytes "true") =
    UnmarshalJSON (NewBool false false) (bytes "true")
  /\ snd (UnmarshalText (NewBool false false) (bytes "  " ++ bytes "true")) <> None.
Proof.
  destruct (UnmarshalJSON_leading_space (NewBool false false) (bytes "  ") (bytes "true"))
    as [H1 H2]; [reflexivity |].
  split; [exact H1 | apply H2; discriminate].
Defined.

(** ** The origin of a type-mismatch error *)

Lemma UnmarshalJSON_mismatch_only_default_witness :
  exists v,
    json.Unmarshal_interface (json_text "'null'") = inr v
    /\ is_default v = true
    /\ "json: cannot unmarshal string into Go value of type zero.Bool" =
         cannot_unmarshal (json.TypeOf_Name v)
    /\ NewBool true false = NewBool (get_Bool (NewBool true true)) false.
Proof.
  apply (UnmarshalJSON_mismatch_only_default (NewBool true true)).
  vm_compute. reflexivity.
Defined.

(** ** Invalid results hold no stale value *)

(** The results of [AND], [OR] and [XOR] are normalised: when invalid
    they hold false.  Hence [AND] and [OR] are idempotent exactly on the
    normalised values. *)
Theorem operators_normalised (a b : Bool) :
  normalised (AND a b) /\ normalised (OR a b) /\ normalised (XOR a b)
  /\ (AND a a = a <-> normalised a)
  /\ (OR a a = a <-> normalised a).
Proof.
  unfold normalised. by_fields; cbn; repeat split; try reflexivity; try discriminate.
  all: try (intros H; solve [reflexivity | discriminate H | inversion H]).
  all: intros H; discriminate (H eq_refl).
Qed.

(** The constructors from strings and from pointers return normalised
    values, whatever the string; [NewBool] returns what it is given. *)
Theorem constructors_normalised :
  (forall s v, normalised (NewBoolFromString s v))
  /\ (forall s, normalised (BoolFromString s))
  /\ (forall s x, normalised (BoolFromStringExist s x))
  /\ (forall p, normalised (BoolFromPtr p))
  /\ ~ normalised (NewBool true false).
Proof.
  unfold normalised.
  split; [| split; [| split; [| split]]].
  - intros s v. unfold NewBoolFromString.
    destruct v; [| reflexivity].
    destruct (s =? ""); [reflexivity |].
    destruct ((s =? "1") || (s =? "true")); [discriminate |].
    destruct ((s =? "0") || (s =? "false")); reflexivity.
  - intros s. unfold BoolFromString.
    destruct (s =? ""); [reflexivity |].
    destruct ((s =? "1") || (s =? "true") || (s =? "True") || (s =? "TRUE"));
      [discriminate |].
    destruct ((s =? "0") || (s =? "false") || (s =? "False") || (s =? "FALSE"));
      reflexivity.
  - intros s x. unfold BoolFromStringExist.
    destruct ((s =? "") || Bool.eqb x false); [reflexivity | discriminate].
  - intros [x |]; [discriminate | reflexivity].
  - intros H. discriminate (H eq_refl).
Qed.
